(** * InterviewSession: the turn-taking controller of the interview component

    A shallow embedding of [src/app/components/InterviewSession.tsx].

    - The React state of the component is a record, one field per [useState].
    - An event handler is a computation that reads the values captured by the
      render that created it (its closure), issues state updates, and calls
      the external services. The calls are recorded in a trace.
    - An [await] splits a handler in two: the part run up to the request, and
      the part run when the promise settles. *)

From Stdlib Require Import String Ascii List NArith Arith Bool Lia.
Import ListNotations.

(** ** JavaScript strings *)

(** A JavaScript string is a sequence of UTF-16 code units. *)
Module JsString.

Definition t : Type := list N.

(** An ASCII literal of the source, as code units. *)
Definition lit (s : string) : t := map N_of_ascii (list_ascii_of_string s).

(** The code units [String.prototype.trim] strips: ECMAScript's WhiteSpace
    and LineTerminator productions. All of them lie in the basic plane. *)
Definition isWhiteSpace (c : N) : bool :=
  ((0x9 <=? c) && (c <=? 0xD) || (c =? 0x20) || (c =? 0xA0) || (c =? 0x1680)
   || (0x2000 <=? c) && (c <=? 0x200A)
   || (c =? 0x2028) || (c =? 0x2029) || (c =? 0x202F) || (c =? 0x205F)
   || (c =? 0x3000) || (c =? 0xFEFF))%N.

Fixpoint trimStart (s : t) : t :=
  match s with
  | [] => []
  | c :: s' => if isWhiteSpace c then trimStart s' else s
  end.

Definition trimEnd (s : t) : t := rev (trimStart (rev s)).

Definition trim (s : t) : t := trimEnd (trimStart s).

(** ToBoolean on a string: only the empty string is falsy. *)
Definition truthy (s : t) : bool :=
  match s with
  | [] => false
  | _ :: _ => true
  end.

(** Empty or made of white space only. *)
Definition blank (s : t) : bool := forallb isWhiteSpace s.

End JsString.

(** ** Data model *)

Inductive Speaker : Type := user | bot.

Definition Speaker_eqb (a b : Speaker) : bool :=
  match a, b with
  | user, user | bot, bot => true
  | _, _ => false
  end.

(** An element of the [conversation] array. *)
Record Turn : Type := mkTurn { speaker : Speaker; text : JsString.t }.

(** The [userInfo] prop. *)
Record UserInfo : Type := mkUserInfo {
  name : JsString.t;
  position : JsString.t;
  experience : JsString.t;
  additionalInfo : JsString.t
}.

(** The component state: the eight [useState] cells. *)
Record State : Type := mkState {
  isListening : bool;
  transcript : JsString.t;
  botResponse : JsString.t;
  conversation : list Turn;
  isConnected : bool;
  isBotSpeaking : bool;
  isLoading : bool;
  activeMessageIndex : nat
}.

(** The values passed to [useState] on mount. *)
Definition initialState : State :=
  {| isListening := false; transcript := []; botResponse := [];
     conversation := []; isConnected := false; isBotSpeaking := false;
     isLoading := false; activeMessageIndex := 0 |}.

(** The state setters. [setConversation] takes an updater, the form the
    handlers use ([prev => [...prev, turn]]); a plain value is the constant
    updater. *)
Definition setIsListening (b : bool) (st : State) : State :=
  mkState b (transcript st) (botResponse st) (conversation st)
          (isConnected st) (isBotSpeaking st) (isLoading st)
          (activeMessageIndex st).

Definition setTranscript (s : JsString.t) (st : State) : State :=
  mkState (isListening st) s (botResponse st) (conversation st)
          (isConnected st) (isBotSpeaking st) (isLoading st)
          (activeMessageIndex st).

Definition setBotResponse (s : JsString.t) (st : State) : State :=
  mkState (isListening st) (transcript st) s (conversation st)
          (isConnected st) (isBotSpeaking st) (isLoading st)
          (activeMessageIndex st).

Definition setConversation (f : list Turn -> list Turn) (st : State) : State :=
  mkState (isListening st) (transcript st) (botResponse st)
          (f (conversation st))
          (isConnected st) (isBotSpeaking st) (isLoading st)
          (activeMessageIndex st).

Definition setIsConnected (b : bool) (st : State) : State :=
  mkState (isListening st) (transcript st) (botResponse st) (conversation st)
          b (isBotSpeaking st) (isLoading st) (activeMessageIndex st).

Definition setIsBotSpeaking (b : bool) (st : State) : State :=
  mkState (isListening st) (transcript st) (botResponse st) (conversation st)
          (isConnected st) b (isLoading st) (activeMessageIndex st).

Definition setIsLoading (b : bool) (st : State) : State :=
  mkState (isListening st) (transcript st) (botResponse st) (conversation st)
          (isConnected st) (isBotSpeaking st) b (activeMessageIndex st).

Definition setActiveMessageIndex (i : nat) (st : State) : State :=
  mkState (isListening st) (transcript st) (botResponse st) (conversation st)
          (isConnected st) (isBotSpeaking st) (isLoading st) i.

(** ** The outside world *)

(** What the runtime offers: the answers of [isSynthesisSupported] and
    [isRecognitionSupported]. *)
Record Env : Type := mkEnv {
  isSynthesisSupported : bool;
  isRecognitionSupported : bool
}.

(** How a promise of the dialogue service settles. *)
Inductive Outcome : Type :=
| Resolved (question : JsString.t)
| Rejected.

(** The function value [handleTranscript] of one render. It closes over the
    state variables of that render, so it is identified by them. *)
Inductive Callback : Type :=
| HandleTranscript (render : State).

(** The arrow function handed to [setTimeout]: it calls the callback on a
    text fixed in advance. *)
Inductive Thunk : Type :=
| Deliver (onResult : Callback) (canned : JsString.t).

(** The calls the component makes on its collaborators, in program order. *)
Inductive Call : Type :=
| ResetConversation
| InitializeWithUserInfo (userInfo : UserInfo)
| GenerateInitialQuestion
| GenerateNextQuestion (answer : JsString.t)
| Speak (utterance : JsString.t)
| StartListening (onResult : Callback)
| StopListening
| SpeechSynthesisCancel
| SetTimeout (handler : Thunk) (ms : nat)
| ConsoleError (message : string)
| OnEndInterview.

(** ** Handler computations *)

(** A handler body threads the pending state and appends to the call trace. *)
Definition M (A : Type) : Type := State -> A * State * list Call.

Definition ret {A : Type} (a : A) : M A := fun st => (a, st, []).

Definition bind {A B : Type} (m : M A) (k : A -> M B) : M B :=
  fun st =>
    let '(a, st1, t1) := m st in
    let '(b, st2, t2) := k a st1 in
    (b, st2, t1 ++ t2).

Definition update (f : State -> State) : M unit := fun st => (tt, f st, []).

Definition call (c : Call) : M unit := fun st => (tt, st, [c]).

Definition when (b : bool) (m : M unit) : M unit := if b then m else ret tt.

Declare Scope handler_scope.
Delimit Scope handler_scope with handler.
Notation "x <- m ;; k" := (bind m (fun x => k))
  (at level 61, m at next level, right associativity) : handler_scope.
Notation "m ;; k" := (bind m (fun _ => k))
  (at level 61, right associativity) : handler_scope.
Open Scope handler_scope.

(** The state and the trace a computation leaves behind. *)
Definition exec {A : Type} (m : M A) (st : State) : State := snd (fst (m st)).
Definition trace {A : Type} (m : M A) (st : State) : list Call := snd (m st).
Definition result {A : Type} (m : M A) (st : State) : A := fst (fst (m st)).

(** ** The component *)

Section Component.

Variable env : Env.
Variable userInfo : UserInfo.

(** The template literal of the [catch] branch of [initializeInterview]. *)
Definition fallbackQuestion : JsString.t :=
  JsString.lit "Hello " ++ name userInfo
    ++ JsString.lit ", thanks for joining this interview for the "
    ++ position userInfo
    ++ JsString.lit " position. Could you tell me about your background and experience?".

(** [initializeInterview], up to [await generateInitialQuestion()]. *)
Definition initializeInterview_request : M unit :=
  call ResetConversation ;;
  call (InitializeWithUserInfo userInfo) ;;
  update (setIsLoading true) ;;
  call GenerateInitialQuestion.

(** [initializeInterview], from the settlement of that promise on: the rest
    of the [try] block or the [catch] block, then [finally], then the
    statement after it. *)
Definition initializeInterview_settled (o : Outcome) : M unit :=
  match o with
  | Resolved initialQuestion =>
      update (setBotResponse initialQuestion) ;;
      update (setConversation (fun _ => [mkTurn bot initialQuestion])) ;;
      when (isSynthesisSupported env)
        (update (setIsBotSpeaking true) ;;
         call (Speak initialQuestion))
  | Rejected =>
      call (ConsoleError "Error initializing interview:") ;;
      update (setBotResponse fallbackQuestion) ;;
      update (setConversation (fun _ => [mkTurn bot fallbackQuestion]))
  end ;;
  update (setIsLoading false) ;;
  update (setIsConnected true).

Definition initializeInterview (o : Outcome) : M unit :=
  initializeInterview_request ;;
  initializeInterview_settled o.

(** The completion callback given to [speechService.speak]. *)
Definition speakDone : M unit := update (setIsBotSpeaking false).

(** The cleanup function the mount effect returns. *)
Definition cleanup : M unit :=
  call StopListening ;;
  when (isSynthesisSupported env) (call SpeechSynthesisCancel).

(** [handleTranscript], up to [await generateNextQuestion(text)]. The
    result tells whether the request was made ([false]: early return).
    [isListening] is read from [r], the render that created the function:
    a handler sees the state variables of its own render, not the state at
    the time it runs. The updater given to [setConversation] does see the
    current conversation. *)
Definition handleTranscript_request (r : State) (text : JsString.t) : M bool :=
  if negb (JsString.truthy (JsString.trim text)) then ret false
  else
    update (setTranscript text) ;;
    update (setConversation (fun prev => prev ++ [mkTurn user text])) ;;
    when (isListening r)
      (call StopListening ;;
       update (setIsListening false)) ;;
    update (setIsLoading true) ;;
    call (GenerateNextQuestion text) ;;
    ret true.

(** [handleTranscript], from the settlement of the follow-up request on. *)
Definition handleTranscript_settled (o : Outcome) : M unit :=
  match o with
  | Resolved nextQuestion =>
      update (setBotResponse nextQuestion) ;;
      update (setConversation (fun prev => prev ++ [mkTurn bot nextQuestion])) ;;
      when (isSynthesisSupported env)
        (update (setIsBotSpeaking true) ;;
         call (Speak nextQuestion))
  | Rejected =>
      call (ConsoleError "Error generating response:")
  end ;;
  update (setIsLoading false).

(** The whole of [handleTranscript], for a run in which nothing else
    happens while the request is pending. *)
Definition handleTranscript (r : State) (text : JsString.t) (o : Outcome)
  : M unit :=
  requested <- handleTranscript_request r text ;;
  when requested (handleTranscript_settled o).

(** The literal of the mock branch of [toggleListening]. *)
Definition mockTranscript : JsString.t :=
  JsString.lit "I have 5 years of experience working with React and Next.js. I've built several enterprise applications and led teams of frontend developers.".

(** [toggleListening] of render [r]. [started] is what
    [speechService.startListening] answers if it is called. *)
Definition toggleListening (r : State) (started : bool) : M unit :=
  if isBotSpeaking r || isLoading r then ret tt
  else if negb (isListening r) then
    if isRecognitionSupported env then
      call (StartListening (HandleTranscript r)) ;;
      update (setIsListening started)
    else
      update (setIsListening true) ;;
      call (SetTimeout (Deliver (HandleTranscript r) mockTranscript) 3000)
  else
    when (isRecognitionSupported env) (call StopListening) ;;
    update (setIsListening false).

(** [handleEndInterview]. *)
Definition handleEndInterview : M unit :=
  call StopListening ;;
  when (isSynthesisSupported env) (call SpeechSynthesisCancel) ;;
  call OnEndInterview.

(** *** Callbacks held by the collaborators *)

(** The transcription service calls the function it was given. *)
Definition invoke (cb : Callback) (text : JsString.t) : M bool :=
  match cb with
  | HandleTranscript r => handleTranscript_request r text
  end.

(** The timer runs the arrow function it was given. *)
Definition fire (k : Thunk) : M bool :=
  match k with
  | Deliver cb canned => invoke cb canned
  end.

(** *** Rendering *)

(** The effect on [conversation.length]: when the length differs from the
    one of the previous render and is positive, the last turn becomes the
    active one. *)
Definition useEffect_activeMessageIndex (previous st : State) : State :=
  if length (conversation previous) =? length (conversation st) then st
  else if 0 <? length (conversation st)
       then setActiveMessageIndex (length (conversation st) - 1) st
       else st.

(** A handler followed by the render it causes. *)
Definition committed {A : Type} (m : M A) : M A :=
  fun st =>
    let '(a, st', calls) := m st in
    (a, useEffect_activeMessageIndex st st', calls).

(** [conversation[activeMessageIndex] || null]: an index past the end
    reads [undefined], which [||] turns into [null]; a turn is an object,
    hence truthy. *)
Definition activeMessage (st : State) : option Turn :=
  nth_error (conversation st) (activeMessageIndex st).

(** The session status, read off the status line of the render. *)
Inductive Status : Type := Idle | Listening | Processing | Speaking.

Definition status (st : State) : Status :=
  if isBotSpeaking st then Speaking
  else if isLoading st then Processing
  else if isListening st then Listening
  else Idle.

(** What the render shows, as far as the controller is concerned. *)
Record View : Type := mkView {
  panel : option Turn;      (* the current-turn panel, if rendered *)
  pills : list nat;         (* the history buttons, by the index they select *)
  spinner : bool;           (* "Generating response..." *)
  micDisabled : bool;       (* [disabled] of the microphone button *)
  statusLine : Status
}.

Definition render (st : State) : View :=
  {| panel := activeMessage st;
     pills := if 1 <? length (conversation st)
              then seq 0 (length (conversation st))
              else [];
     spinner := isLoading st;
     micDisabled := isBotSpeaking st || isLoading st;
     statusLine := status st |}.

(** *** User actions *)

(** A click on the microphone button runs [toggleListening] of the render
    on screen, whose state variables are the current ones. *)
Definition clickMicrophone (started : bool) : M unit :=
  fun st => toggleListening st started st.

(** A click on the history button of index [i]. *)
Definition clickPill (i : nat) : M unit := update (setActiveMessageIndex i).

(** The session start: the mount effect, run from the initial state. *)
Definition sessionStart (o : Outcome) : State :=
  exec (committed (initializeInterview o)) initialState.

End Component.

(** ** Runs and observations *)

(** One transcription-then-dialogue cycle that succeeds: the transcription
    service hands [heard] to the [handleTranscript] of render [handlerOf], and
    the dialogue service answers [reply]. *)
Record Cycle : Type := mkCycle {
  heard : JsString.t;
  reply : JsString.t;
  handlerOf : State
}.

Definition runCycle (env : Env) (c : Cycle) : M unit :=
  committed (handleTranscript env (handlerOf c) (heard c) (Resolved (reply c))).

Fixpoint runCycles (env : Env) (cs : list Cycle) : M unit :=
  match cs with
  | [] => ret tt
  | c :: cs' => runCycle env c ;; runCycles env cs'
  end.

(** The two turns a successful cycle contributes. *)
Definition turnsOf (c : Cycle) : list Turn :=
  [mkTurn user (heard c); mkTurn bot (reply c)].

Definition other (s : Speaker) : Speaker :=
  match s with
  | user => bot
  | bot => user
  end.

(** The speakers alternate, the first one being [first]. *)
Fixpoint alternates (first : Speaker) (turns : list Turn) : bool :=
  match turns with
  | [] => true
  | t :: turns' => Speaker_eqb (speaker t) first && alternates (other first) turns'
  end.

(** Some call satisfying [p] is made, and a later one satisfies [q]. *)
Fixpoint happensBefore (p q : Call -> bool) (calls : list Call) : bool :=
  match calls with
  | [] => false
  | c :: calls' => p c && existsb q calls' || happensBefore p q calls'
  end.

Definition isStopListening (c : Call) : bool :=
  match c with
  | StopListening => true
  | _ => false
  end.

Definition isOnEndInterview (c : Call) : bool :=
  match c with
  | OnEndInterview => true
  | _ => false
  end.

(** The texts handed to the speech-output service. *)
Fixpoint spoken (calls : list Call) : list JsString.t :=
  match calls with
  | [] => []
  | Speak s :: calls' => s :: spoken calls'
  | _ :: calls' => spoken calls'
  end.

(** The callbacks handed to the transcription service. *)
Fixpoint listened (calls : list Call) : list Callback :=
  match calls with
  | [] => []
  | StartListening cb :: calls' => cb :: listened calls'
  | _ :: calls' => listened calls'
  end.

(** The thunks handed to [setTimeout], each with its delay. *)
Fixpoint timers (calls : list Call) : list (Thunk * nat) :=
  match calls with
  | [] => []
  | SetTimeout k ms :: calls' => (k, ms) :: timers calls'
  | _ :: calls' => timers calls'
  end.

(** A callback is handed [text] and the follow-up request it makes, if any,
    settles as [o], nothing else happening in between. *)
Definition answered (env : Env) (cb : Callback) (text : JsString.t) (o : Outcome)
  : M unit :=
  requested <- invoke cb text ;;
  when requested (handleTranscript_settled env o).

(** The user can select index [i]: the render has a history button for it. *)
Definition selectable (st : State) (i : nat) : bool :=
  existsb (Nat.eqb i) (pills (render st)).

(** A transcription result that arrives after [handleEndInterview] ran in
    state [st] leaves the conversation as it is. *)
Definition lateTranscriptSuppressed
  (env : Env) (st : State) (cb : Callback) (text : JsString.t) : Prop :=
  let ended := exec (handleEndInterview env) st in
  conversation (exec (committed (invoke cb text)) ended) = conversation ended.

(** The history of [st] only lets the user select indices below
    [length - 1]. *)
Definition selectionsBelowLast (st : State) : Prop :=
  forall i, selectable st i = true -> i < length (conversation st) - 1.

(** The history button of index [i] is the wide one:
    [index === activeMessageIndex]. *)
Definition highlighted (st : State) (i : nat) : bool :=
  i =? activeMessageIndex st.

(** ** The component among its collaborators *)

(** The follow-up requests a trace makes. *)
Fixpoint followUps (calls : list Call) : nat :=
  match calls with
  | [] => 0
  | GenerateNextQuestion _ :: calls' => S (followUps calls')
  | _ :: calls' => followUps calls'
  end.

(** Whether a trace requests the opening question. *)
Fixpoint opens (calls : list Call) : bool :=
  match calls with
  | [] => false
  | GenerateInitialQuestion :: _ => true
  | _ :: calls' => opens calls'
  end.

(** The component state together with what its collaborators still hold on
    its behalf: the promises of the dialogue service that have not settled,
    the result callbacks given to the transcription service, the timers that
    have not fired, and the utterances whose completion callback has not
    run. *)
Record World : Type := mkWorld {
  component : State;
  openingPending : bool;
  followUpsPending : nat;
  handlers : list Callback;
  armed : list Thunk;
  utterances : nat
}.

(** What can happen to a mounted component whose [userInfo] prop stays the
    same (a new profile runs the mount effect again: a new session). The
    transcription service may call any callback it was ever given, any
    number of times; a timer fires once; a promise settles once; the
    completion callback of an utterance runs at most once. *)
Inductive Event : Type :=
| OpeningSettles (o : Outcome)
| MicrophoneClicked (started : bool)
| ResultArrives (n : nat) (text : JsString.t)
| TimerFires (n : nat)
| FollowUpSettles (o : Outcome)
| UtteranceEnds
| PillClicked (i : nat)
| EndClicked.

(** A handler runs, the component renders, and the collaborators keep what
    the calls of the handler gave them. *)
Definition after {A : Type} (m : M A) (w : World) : World * list Call :=
  let '(_, st, calls) := committed m (component w) in
  (mkWorld st
           (openingPending w || opens calls)
           (followUpsPending w + followUps calls)
           (handlers w ++ listened calls)
           (armed w ++ map fst (timers calls))
           (utterances w + length (spoken calls)),
   calls).

Definition without {A : Type} (n : nat) (l : list A) : list A :=
  firstn n l ++ skipn (S n) l.

(** One event: the world after it and the calls made, or [None] when the
    event cannot happen (no such promise, callback, timer, utterance or
    button). *)
Definition step (env : Env) (userInfo : UserInfo) (e : Event) (w : World)
  : option (World * list Call) :=
  match e with
  | OpeningSettles o =>
      if openingPending w
      then Some (after (initializeInterview_settled env userInfo o)
                   (mkWorld (component w) false (followUpsPending w)
                            (handlers w) (armed w) (utterances w)))
      else None
  | MicrophoneClicked started =>
      Some (after (clickMicrophone env started) w)
  | ResultArrives n text =>
      match nth_error (handlers w) n with
      | Some cb => Some (after (invoke cb text) w)
      | None => None
      end
  | TimerFires n =>
      match nth_error (armed w) n with
      | Some k =>
          Some (after (fire k)
                  (mkWorld (component w) (openingPending w) (followUpsPending w)
                           (handlers w) (without n (armed w)) (utterances w)))
      | None => None
      end
  | FollowUpSettles o =>
      match followUpsPending w with
      | S pending =>
          Some (after (handleTranscript_settled env o)
                  (mkWorld (component w) (openingPending w) pending
                           (handlers w) (armed w) (utterances w)))
      | 0 => None
      end
  | UtteranceEnds =>
      match utterances w with
      | S pending =>
          Some (after speakDone
                  (mkWorld (component w) (openingPending w) (followUpsPending w)
                           (handlers w) (armed w) pending))
      | 0 => None
      end
  | PillClicked i =>
      if selectable (component w) i
      then Some (after (clickPill i) w)
      else None
  | EndClicked =>
      Some (after (handleEndInterview env) w)
  end.

(** The component as mounted: the first render, then the mount effect up to
    its request. *)
Definition mounted (userInfo : UserInfo) : World :=
  fst (after (initializeInterview_request userInfo)
         (mkWorld initialState false 0 [] [] 0)).

(** A sequence of events, from the first to the last. *)
Fixpoint run (env : Env) (userInfo : UserInfo) (es : list Event) (w : World)
  : option World :=
  match es with
  | [] => Some w
  | e :: es' =>
      match step env userInfo e w with
      | Some (w', _) => run env userInfo es' w'
      | None => None
      end
  end.

(** The worlds a session can be in. *)
Definition reachable (env : Env) (userInfo : UserInfo) (w : World) : Prop :=
  exists es, run env userInfo es (mounted userInfo) = Some w.

(** *** Invariants of a session *)

(** Once the opening request has settled, the conversation starts with a bot
    turn; and the active index, if there is a turn at all, is the index of
    one. *)
Definition settledWell (w : World) : Prop :=
  (openingPending w = true
   \/ exists q rest, conversation (component w) = mkTurn bot q :: rest)
  /\ (conversation (component w) = []
      \/ activeMessageIndex (component w) < length (conversation (component w))).


(** A [handleTranscript] of a render that was not listening. *)
Definition handlerIdle (cb : Callback) : Prop :=
  match cb with
  | HandleTranscript r => isListening r = false
  end.

Definition thunkIdle (k : Thunk) : Prop :=
  match k with
  | Deliver cb canned => handlerIdle cb /\ canned = mockTranscript
  end.

(** Every callback and timer handed out is such a one. *)
Definition handedOutIdle (w : World) : Prop :=
  Forall handlerIdle (handlers w) /\ Forall thunkIdle (armed w).

(** The loading flag is set only while a request is pending, the speaking
    flag only while an utterance has not ended. *)
Definition backed (w : World) : Prop :=
  (isLoading (component w) = true ->
   openingPending w = true \/ 0 < followUpsPending w)
  /\ (isBotSpeaking (component w) = true -> 0 < utterances w).

(** The events that hand a transcript to a [handleTranscript]. *)
Definition delivery (e : Event) : bool :=
  match e with
  | ResultArrives _ _ | TimerFires _ => true
  | _ => false
  end.

(** The world a sequence of events leads to from the mount; the mounted
    world itself if the sequence cannot happen. *)
Definition worldAfter (env : Env) (userInfo : UserInfo) (es : list Event) : World :=
  match run env userInfo es (mounted userInfo) with
  | Some w => w
  | None => mounted userInfo
  end.

(** ** Properties of the string operations *)

Module JsStringFacts.
Import JsString.

Lemma trimStart_nil_iff (s : t) : trimStart s = [] <-> blank s = true.
Proof.
  induction s as [|c s IH]; simpl.
  - tauto.
  - destruct (isWhiteSpace c); simpl.
    + exact IH.
    + split; discriminate.
Qed.

Lemma blank_rev (s : t) : blank (rev s) = blank s.
Proof.
  unfold blank. induction s as [|c s IH]; simpl.
  - reflexivity.
  - rewrite forallb_app, IH. simpl.
    rewrite andb_true_r. apply andb_comm.
Qed.

(** What [trimStart] leaves is blank only if it is empty. *)
Lemma blank_trimStart (s : t) : blank (trimStart s) = blank s.
Proof.
  induction s as [|c s IH]; simpl.
  - reflexivity.
  - destruct (isWhiteSpace c) eqn:E; simpl.
    + exact IH.
    + rewrite E. reflexivity.
Qed.

Lemma trim_nil_iff (s : t) : trim s = [] <-> blank s = true.
Proof.
  unfold trim, trimEnd. split.
  - intros H.
    apply (f_equal (@rev N)) in H. rewrite rev_involutive in H. simpl in H.
    apply trimStart_nil_iff in H.
    rewrite blank_rev, blank_trimStart in H. exact H.
  - intros H.
    apply trimStart_nil_iff in H. rewrite H. reflexivity.
Qed.

(** The guard of [handleTranscript]: [!text.trim()]. *)
Lemma guard_blank (s : t) : negb (truthy (trim s)) = blank s.
Proof.
  destruct (blank s) eqn:B.
  - apply trim_nil_iff in B. rewrite B. reflexivity.
  - destruct (trim s) eqn:T.
    + apply trim_nil_iff in T. congruence.
    + reflexivity.
Qed.

End JsStringFacts.

(** ** Properties of handler computations *)

Lemma exec_bind {A B : Type} (m : M A) (k : A -> M B) (st : State) :
  exec (bind m k) st = exec (k (result m st)) (exec m st).
Proof.
  unfold exec, result, bind.
  destruct (m st) as [[a st1] t1]; simpl.
  destruct (k a st1) as [[b st2] t2]; reflexivity.
Qed.

Lemma trace_bind {A B : Type} (m : M A) (k : A -> M B) (st : State) :
  trace (bind m k) st = trace m st ++ trace (k (result m st)) (exec m st).
Proof.
  unfold trace, exec, result, bind.
  destruct (m st) as [[a st1] t1]; simpl.
  destruct (k a st1) as [[b st2] t2]; reflexivity.
Qed.

(** The render effect touches the active index only. *)
Lemma conversation_useEffect (previous st : State) :
  conversation (useEffect_activeMessageIndex previous st) = conversation st.
Proof.
  unfold useEffect_activeMessageIndex.
  destruct (_ =? _); [reflexivity|].
  destruct (_ <? _); reflexivity.
Qed.

Lemma conversation_committed {A : Type} (m : M A) (st : State) :
  conversation (exec (committed m) st) = conversation (exec m st).
Proof.
  unfold exec, committed. destruct (m st) as [[a st'] t]; simpl.
  apply conversation_useEffect.
Qed.

Lemma exec_committed {A : Type} (m : M A) (st : State) :
  exec (committed m) st = useEffect_activeMessageIndex st (exec m st).
Proof.
  unfold exec, committed. destruct (m st) as [[a st'] t]; reflexivity.
Qed.

Lemma trace_committed {A : Type} (m : M A) (st : State) :
  trace (committed m) st = trace m st.
Proof.
  unfold trace, committed. destruct (m st) as [[a st'] t]; reflexivity.
Qed.

Lemma status_useEffect (previous st : State) :
  status (useEffect_activeMessageIndex previous st) = status st.
Proof.
  unfold useEffect_activeMessageIndex.
  destruct (_ =? _); [reflexivity|].
  destruct (_ <? _); reflexivity.
Qed.

(** After a render caused by a change of length, the last turn is active. *)
Lemma useEffect_latest (previous st : State) :
  length (conversation previous) <> length (conversation st) ->
  conversation st <> [] ->
  activeMessageIndex (useEffect_activeMessageIndex previous st)
  = length (conversation st) - 1.
Proof.
  intros Hlen Hne. unfold useEffect_activeMessageIndex.
  destruct (Nat.eqb_spec (length (conversation previous)) (length (conversation st)))
    as [E|_]; [contradiction|].
  destruct (conversation st) as [|t l]; [contradiction|].
  reflexivity.
Qed.

(** ** The transcript guard *)

Lemma handleTranscript_request_blank (r : State) (text : JsString.t) (st : State) :
  JsString.blank text = true ->
  handleTranscript_request r text st = (false, st, []).
Proof.
  intros B. unfold handleTranscript_request.
  rewrite JsStringFacts.guard_blank, B. reflexivity.
Qed.

Lemma useEffect_same_length (previous st : State) :
  length (conversation previous) = length (conversation st) ->
  useEffect_activeMessageIndex previous st = st.
Proof.
  intros E. unfold useEffect_activeMessageIndex.
  rewrite E, Nat.eqb_refl. reflexivity.
Qed.

Lemma useEffect_same (st : State) : useEffect_activeMessageIndex st st = st.
Proof. apply useEffect_same_length. reflexivity. Qed.

(** C5. A transcript that is empty or made of white space only is ignored by
    [handleTranscript]: it returns before any update or call, whatever render
    the handler belongs to and however the dialogue service would have
    answered. The state is the same afterwards, so no turn is appended, the
    length of the conversation is unchanged, and a session that was Listening
    is still Listening. *)
Theorem blank_transcript_ignored
  (env : Env) (r : State) (text : JsString.t) (o : Outcome) (st : State) :
  JsString.blank text = true ->
  committed (handleTranscript env r text o) st = (tt, st, [])
  /\ conversation (exec (committed (handleTranscript env r text o)) st)
     = conversation st
  /\ (status st = Listening ->
      status (exec (committed (handleTranscript env r text o)) st) = Listening).
Proof.
  intros B.
  assert (E : committed (handleTranscript env r text o) st = (tt, st, [])).
  { unfold committed, handleTranscript, bind.
    rewrite (handleTranscript_request_blank r text st B). simpl.
    rewrite useEffect_same. reflexivity. }
  unfold exec. rewrite E. simpl. auto.
Qed.

Lemma blank_transcript_ignored_witness :
  let st := setIsListening true
              (setConversation (fun _ => [mkTurn bot (JsString.lit "Hi")])
                 initialState) in
  let text := [0x20; 0x9; 0xA0; 0x3000; 0xA]%N in
  JsString.blank text = true
  /\ status st = Listening
  /\ committed (handleTranscript (mkEnv true true) initialState text Rejected) st
     = (tt, st, []).
Proof.
  split; [reflexivity|]. split; [reflexivity|].
  apply (blank_transcript_ignored (mkEnv true true) initialState
           [0x20; 0x9; 0xA0; 0x3000; 0xA]%N Rejected).
  reflexivity.
Defined.

(** ** The microphone guard *)

Lemma status_busy (st : State) :
  status st = Processing \/ status st = Speaking <->
  isBotSpeaking st || isLoading st = true.
Proof.
  unfold status.
  destruct (isBotSpeaking st), (isLoading st), (isListening st); simpl;
    split; intros H; try reflexivity; try discriminate;
    try (destruct H; discriminate); auto.
Qed.

(** [toggleListening] of a render that is speaking or loading does nothing. *)
Lemma toggleListening_guard (env : Env) (r : State) (started : bool) (st : State) :
  isBotSpeaking r || isLoading r = true ->
  toggleListening env r started st = (tt, st, []).
Proof.
  intros G. unfold toggleListening. rewrite G. reflexivity.
Qed.

(** C2. In a state whose status is Processing or Speaking the microphone
    button is disabled, and [toggleListening] run from that state returns at
    once: every state variable keeps its value and the trace of calls is
    empty, so the transcription service is not called, whatever it would have
    answered to a start request. *)
Theorem start_listening_guarded (env : Env) (started : bool) (st : State) :
  status st = Processing \/ status st = Speaking ->
  clickMicrophone env started st = (tt, st, [])
  /\ listened (trace (clickMicrophone env started) st) = []
  /\ micDisabled (render st) = true.
Proof.
  intros H. apply status_busy in H.
  assert (E : clickMicrophone env started st = (tt, st, []))
    by (apply toggleListening_guard; exact H).
  unfold trace. rewrite E. simpl. auto.
Qed.

Lemma start_listening_guarded_witness :
  let busy := setIsLoading true initialState in
  status busy = Processing
  /\ clickMicrophone (mkEnv true true) true busy = (tt, busy, []).
Proof.
  split; [reflexivity|].
  apply (start_listening_guarded (mkEnv true true) true
           (setIsLoading true initialState)).
  left; reflexivity.
Defined.

(** ** The active message *)

Lemma activeMessage_None_iff (st : State) :
  activeMessage st = None <->
  length (conversation st) <= activeMessageIndex st.
Proof. apply nth_error_None. Qed.

Lemma activeMessage_Some_iff (st : State) :
  (exists t, activeMessage st = Some t) <->
  activeMessageIndex st < length (conversation st).
Proof.
  unfold activeMessage. rewrite <- nth_error_Some.
  destruct (nth_error _ _); split; intros H; try congruence; eauto.
  destruct H; discriminate.
Qed.

(** C10. With an empty conversation the active message is [null], whatever
    the active index: the lookup is defined for every state, and the render
    has no current-turn panel. This is in particular the situation of the
    first render and of the render made while the opening question is being
    requested. *)
Theorem activeMessage_empty (st : State) :
  conversation st = [] ->
  activeMessage st = None /\ panel (render st) = None.
Proof.
  intros E. assert (H : activeMessage st = None).
  { apply activeMessage_None_iff. rewrite E. apply Nat.le_0_l. }
  split; [exact H | exact H].
Qed.

Lemma activeMessage_empty_witness :
  let userInfo := mkUserInfo (JsString.lit "Ana") (JsString.lit "Backend Engineer") [] [] in
  let st := exec (committed (initializeInterview_request userInfo)) initialState in
  conversation st = [] /\ status st = Processing
  /\ activeMessage st = None /\ panel (render st) = None.
Proof.
  split; [reflexivity|]. split; [reflexivity|].
  apply (activeMessage_empty
           (exec (committed
                    (initializeInterview_request
                       (mkUserInfo (JsString.lit "Ana")
                                   (JsString.lit "Backend Engineer") [] [])))
                 initialState)).
  reflexivity.
Defined.

(** ** Session start *)

Lemma conversation_opening (env : Env) (userInfo : UserInfo) (o : Outcome) (st : State) :
  conversation (exec (initializeInterview_settled env userInfo o) st)
  = [mkTurn bot match o with
                | Resolved initialQuestion => initialQuestion
                | Rejected => fallbackQuestion userInfo
                end].
Proof.
  destruct o as [q|]; unfold initializeInterview_settled, when.
  - destruct (isSynthesisSupported env); reflexivity.
  - reflexivity.
Qed.

Lemma conversation_sessionStart (env : Env) (userInfo : UserInfo) (o : Outcome) :
  conversation (sessionStart env userInfo o)
  = [mkTurn bot match o with
                | Resolved initialQuestion => initialQuestion
                | Rejected => fallbackQuestion userInfo
                end].
Proof.
  unfold sessionStart. rewrite conversation_committed.
  unfold initializeInterview. rewrite exec_bind.
  apply conversation_opening.
Qed.

(** C3. When the dialogue service rejects the opening request, the
    conversation becomes the single bot turn whose text is the fallback
    template filled with the name and the position of the profile, whatever
    the state before and whatever the runtime supports. From the initial
    state, whose conversation is empty, that is one turn appended. For the
    profile of Ana, a Backend Engineer, the text is the sentence of the
    example. *)
Theorem opening_fallback (env : Env) (userInfo : UserInfo) :
  (forall st,
     conversation (exec (initializeInterview_settled env userInfo Rejected) st)
     = [mkTurn bot (fallbackQuestion userInfo)])
  /\ conversation (sessionStart env userInfo Rejected)
     = conversation initialState ++ [mkTurn bot (fallbackQuestion userInfo)]
  /\ fallbackQuestion userInfo
     = JsString.lit "Hello " ++ name userInfo
       ++ JsString.lit ", thanks for joining this interview for the "
       ++ position userInfo
       ++ JsString.lit " position. Could you tell me about your background and experience?"
  /\ (forall exp info,
        conversation
          (sessionStart env
             (mkUserInfo (JsString.lit "Ana") (JsString.lit "Backend Engineer")
                         exp info)
             Rejected)
        = [mkTurn bot
             (JsString.lit "Hello Ana, thanks for joining this interview for the Backend Engineer position. Could you tell me about your background and experience?")]).
Proof.
  split; [|split; [|split]].
  - intros st. apply (conversation_opening env userInfo Rejected).
  - apply (conversation_sessionStart env userInfo Rejected).
  - reflexivity.
  - intros exp info. rewrite conversation_sessionStart. reflexivity.
Qed.

(** ** Cycles *)

Lemma conversation_request (r : State) (text : JsString.t) (st : State) :
  JsString.blank text = false ->
  result (handleTranscript_request r text) st = true
  /\ conversation (exec (handleTranscript_request r text) st)
     = conversation st ++ [mkTurn user text].
Proof.
  intros B. unfold handleTranscript_request, result, exec.
  rewrite JsStringFacts.guard_blank, B.
  unfold when. destruct (isListening r); split; reflexivity.
Qed.

Lemma conversation_settled (env : Env) (o : Outcome) (st : State) :
  conversation (exec (handleTranscript_settled env o) st)
  = conversation st ++ match o with
                       | Resolved nextQuestion => [mkTurn bot nextQuestion]
                       | Rejected => []
                       end.
Proof.
  destruct o as [q|]; unfold handleTranscript_settled, when.
  - destruct (isSynthesisSupported env); reflexivity.
  - simpl. rewrite app_nil_r. reflexivity.
Qed.

Lemma conversation_handleTranscript
  (env : Env) (r : State) (text : JsString.t) (o : Outcome) (st : State) :
  JsString.blank text = false ->
  conversation (exec (handleTranscript env r text o) st)
  = conversation st ++ mkTurn user text
      :: match o with
         | Resolved nextQuestion => [mkTurn bot nextQuestion]
         | Rejected => []
         end.
Proof.
  intros B. unfold handleTranscript. rewrite exec_bind.
  destruct (conversation_request r text st B) as [R C].
  rewrite R. simpl when. rewrite conversation_settled, C, <- app_assoc.
  reflexivity.
Qed.

Lemma conversation_runCycle (env : Env) (c : Cycle) (st : State) :
  JsString.blank (heard c) = false ->
  conversation (exec (runCycle env c) st) = conversation st ++ turnsOf c.
Proof.
  intros B. unfold runCycle. rewrite conversation_committed.
  apply (conversation_handleTranscript env (handlerOf c) (heard c) (Resolved (reply c)) st B).
Qed.

Lemma conversation_runCycles (env : Env) (cs : list Cycle) :
  Forall (fun c => JsString.blank (heard c) = false) cs ->
  forall st,
    conversation (exec (runCycles env cs) st)
    = conversation st ++ flat_map turnsOf cs.
Proof.
  induction 1 as [|c cs B _ IH]; intros st; simpl.
  - rewrite app_nil_r. reflexivity.
  - rewrite exec_bind, IH, conversation_runCycle by exact B.
    rewrite <- app_assoc. reflexivity.
Qed.

Lemma alternates_cycles (cs : list Cycle) :
  alternates user (flat_map turnsOf cs) = true.
Proof.
  induction cs as [|c cs IH]; simpl; [reflexivity | exact IH].
Qed.

Lemma length_cycles (cs : list Cycle) :
  length (flat_map turnsOf cs) = 2 * length cs.
Proof.
  induction cs as [|c cs IH]; simpl; [reflexivity | rewrite IH; lia].
Qed.

(** C1. After the session start, however the opening request settled, let
    any number of successful cycles run one after the other: each hands a
    transcript that is not blank to a [handleTranscript] and gets an answer
    from the dialogue service. Every cycle appends the user turn and then the
    bot turn, so the conversation is the opening turn followed by the pairs
    of the cycles: its length is one plus twice the number of cycles, its
    first turn is a bot turn, and the speakers alternate from there. *)
Theorem cycles_alternate
  (env : Env) (userInfo : UserInfo) (o : Outcome) (cs : list Cycle) :
  Forall (fun c => JsString.blank (heard c) = false) cs ->
  let st := exec (runCycles env cs) (sessionStart env userInfo o) in
  (forall c before,
     JsString.blank (heard c) = false ->
     conversation (exec (runCycle env c) before)
     = conversation before ++ [mkTurn user (heard c); mkTurn bot (reply c)])
  /\ conversation st
     = conversation (sessionStart env userInfo o) ++ flat_map turnsOf cs
  /\ length (conversation st) = 1 + 2 * length cs
  /\ option_map speaker (hd_error (conversation st)) = Some bot
  /\ alternates bot (conversation st) = true.
Proof.
  intros B st.
  assert (C : conversation st
              = conversation (sessionStart env userInfo o) ++ flat_map turnsOf cs)
    by (apply conversation_runCycles; exact B).
  split; [|split; [exact C|]].
  - intros c before Bc. apply conversation_runCycle. exact Bc.
  - rewrite C, conversation_sessionStart. simpl.
    rewrite length_cycles, alternates_cycles. auto.
Qed.

Lemma cycles_alternate_witness :
  let env := mkEnv true true in
  let userInfo := mkUserInfo (JsString.lit "Ana") (JsString.lit "Backend Engineer") [] [] in
  let cs := [mkCycle (JsString.lit "I like Rust") (JsString.lit "Why?") initialState;
             mkCycle (JsString.lit " It is fast ") (JsString.lit "Thanks") initialState] in
  map speaker (conversation (exec (runCycles env cs) (sessionStart env userInfo Rejected)))
  = [bot; user; bot; user; bot]
  /\ alternates bot
       (conversation (exec (runCycles env cs) (sessionStart env userInfo Rejected)))
     = true.
Proof.
  split; [reflexivity|].
  apply (cycles_alternate (mkEnv true true)
           (mkUserInfo (JsString.lit "Ana") (JsString.lit "Backend Engineer") [] [])
           Rejected
           [mkCycle (JsString.lit "I like Rust") (JsString.lit "Why?") initialState;
            mkCycle (JsString.lit " It is fast ") (JsString.lit "Thanks") initialState]).
  repeat constructor.
Defined.

(** ** Failure of a follow-up request *)

Ltac by_useEffect :=
  unfold useEffect_activeMessageIndex;
  repeat match goal with
         | |- context [if ?b then _ else _] => destruct b
         end; reflexivity.

Lemma isListening_useEffect (previous st : State) :
  isListening (useEffect_activeMessageIndex previous st) = isListening st.
Proof. by_useEffect. Qed.

Lemma isLoading_useEffect (previous st : State) :
  isLoading (useEffect_activeMessageIndex previous st) = isLoading st.
Proof. by_useEffect. Qed.

Lemma isBotSpeaking_useEffect (previous st : State) :
  isBotSpeaking (useEffect_activeMessageIndex previous st) = isBotSpeaking st.
Proof. by_useEffect. Qed.

Lemma status_Idle (st : State) :
  status st = Idle <->
  isBotSpeaking st = false /\ isLoading st = false /\ isListening st = false.
Proof.
  unfold status.
  destruct (isBotSpeaking st), (isLoading st), (isListening st);
    split; intros H; try discriminate; auto;
    destruct H as (H1 & H2 & H3); discriminate.
Qed.

(** A click on the microphone in an idle state creates the callback of that
    state's render and sets the listening flag to what the service answers
    (to [true] without a service). *)
Lemma clickMicrophone_idle (env : Env) (started : bool) (st : State) :
  status st = Idle ->
  clickMicrophone env started st
  = if isRecognitionSupported env
    then (tt, setIsListening started st, [StartListening (HandleTranscript st)])
    else (tt, setIsListening true st,
          [SetTimeout (Deliver (HandleTranscript st) mockTranscript) 3000]).
Proof.
  intros I. apply status_Idle in I. destruct I as (S & L & H).
  unfold clickMicrophone, toggleListening. rewrite S, L, H. simpl.
  destruct (isRecognitionSupported env); reflexivity.
Qed.

(** Whatever the state, a [handleTranscript] that [toggleListening] hands out,
    to the transcription service or to a timer, belongs to a render that was
    not listening: in such a function the test [if (isListening)] fails. *)
Lemma registered_handler_not_listening
  (env : Env) (r : State) (started : bool) (st : State) (cb : Callback) :
  In cb (listened (trace (toggleListening env r started) st))
  \/ In cb (map (fun k => match fst k with Deliver c _ => c end)
              (timers (trace (toggleListening env r started) st))) ->
  cb = HandleTranscript r /\ isListening r = false.
Proof.
  unfold trace, toggleListening.
  destruct (isBotSpeaking r || isLoading r); [simpl; tauto|].
  destruct (isListening r); simpl.
  - destruct (isRecognitionSupported env); simpl; tauto.
  - destruct (isRecognitionSupported env); simpl;
      intros [[H|[]]|[H|[]]] || intros [[]|[H|[]]] || intros [[H|[]]|[]];
      auto.
Qed.

Lemma clicked_idle (env : Env) (st : State) :
  status st = Idle ->
  exec (committed (clickMicrophone env true)) st = setIsListening true st.
Proof.
  intros I. unfold exec, committed.
  rewrite (clickMicrophone_idle env true st I).
  destruct (isRecognitionSupported env); simpl;
    apply useEffect_same_length; reflexivity.
Qed.

(** The handler of a render that was not listening, on a transcript that is
    not blank, when the follow-up request is rejected. *)
Lemma answered_rejected (env : Env) (r : State) (text : JsString.t) (st : State) :
  isListening r = false ->
  JsString.blank text = false ->
  answered env (HandleTranscript r) text Rejected st
  = (tt,
     setIsLoading false
       (setIsLoading true
          (setConversation (fun prev => prev ++ [mkTurn user text])
             (setTranscript text st))),
     [GenerateNextQuestion text; ConsoleError "Error generating response:"]).
Proof.
  intros L B. unfold answered, invoke, handleTranscript_request.
  rewrite JsStringFacts.guard_blank, B, L. reflexivity.
Qed.

(** C6. The user starts listening in an idle state, the transcription
    service starts and later hands a transcript that is not blank to the
    callback it was given, and the dialogue service rejects the follow-up
    request. The user turn stays in the conversation and nothing else is
    appended, the error goes to the console and nowhere else, and the loading
    flag is cleared. The listening flag is still set: the callback is the
    [handleTranscript] of the render in which the user clicked, where
    [isListening] was false, so its test [if (isListening)] fails and neither
    [stopListening] nor [setIsListening(false)] runs. The status is Listening
    afterwards, not Idle. *)
Theorem follow_up_failure_keeps_listening
  (env : Env) (text : JsString.t) (st : State) :
  status st = Idle ->
  JsString.blank text = false ->
  let clicked := exec (committed (clickMicrophone env true)) st in
  let cb := HandleTranscript st in
  let failed := exec (committed (answered env cb text Rejected)) clicked in
  (listened (trace (clickMicrophone env true) st) = [cb]
   \/ timers (trace (clickMicrophone env true) st) = [(Deliver cb mockTranscript, 3000)])
  /\ status clicked = Listening
  /\ conversation failed = conversation st ++ [mkTurn user text]
  /\ trace (committed (answered env cb text Rejected)) clicked
     = [GenerateNextQuestion text; ConsoleError "Error generating response:"]
  /\ isLoading failed = false
  /\ isListening failed = true
  /\ status failed = Listening.
Proof.
  intros I B clicked cb failed.
  pose proof I as I'. apply status_Idle in I'. destruct I' as (S & L & H).
  assert (Ec : clicked = setIsListening true st) by (apply clicked_idle; exact I).
  assert (Ef : answered env cb text Rejected clicked = _)
    by (apply answered_rejected; [exact H | exact B]).
  split.
  { unfold trace. rewrite (clickMicrophone_idle env true st I).
    destruct (isRecognitionSupported env); [left | right]; reflexivity. }
  split.
  { rewrite Ec. unfold status. simpl. rewrite S, L. reflexivity. }
  split.
  { unfold failed. rewrite conversation_committed. unfold exec.
    rewrite Ef, Ec. reflexivity. }
  split.
  { rewrite trace_committed. unfold trace. rewrite Ef. reflexivity. }
  assert (F1 : isLoading failed = false).
  { unfold failed, exec, committed. rewrite Ef. simpl.
    rewrite isLoading_useEffect. reflexivity. }
  assert (F2 : isListening failed = true).
  { unfold failed, exec, committed. rewrite Ef. simpl.
    rewrite isListening_useEffect, Ec. reflexivity. }
  assert (F3 : isBotSpeaking failed = false).
  { unfold failed, exec, committed. rewrite Ef. simpl.
    rewrite isBotSpeaking_useEffect, Ec. exact S. }
  split; [exact F1|]. split; [exact F2|].
  unfold status. rewrite F3, F1, F2. reflexivity.
Qed.

Lemma follow_up_failure_keeps_listening_witness :
  let env := mkEnv false true in
  let userInfo := mkUserInfo (JsString.lit "Ana") (JsString.lit "Backend Engineer") [] [] in
  let st := sessionStart env userInfo (Resolved (JsString.lit "Tell me about you")) in
  let clicked := exec (committed (clickMicrophone env true)) st in
  let failed :=
    exec (committed (answered env (HandleTranscript st) (JsString.lit "hi") Rejected))
         clicked in
  status st = Idle
  /\ JsString.blank (JsString.lit "hi") = false
  /\ status failed = Listening.
Proof.
  split; [reflexivity|]. split; [reflexivity|].
  exact (proj2 (proj2 (proj2 (proj2 (proj2 (proj2
    (follow_up_failure_keeps_listening
       (mkEnv false true) (JsString.lit "hi")
       (sessionStart (mkEnv false true)
          (mkUserInfo (JsString.lit "Ana") (JsString.lit "Backend Engineer") [] [])
          (Resolved (JsString.lit "Tell me about you")))
       eq_refl eq_refl))))))).
Defined.

(** ** Speaking the opening question *)

(** The [try] branch of [initializeInterview] hands the question to the
    speech-output service when it is supported. *)
Lemma opening_resolved (env : Env) (userInfo : UserInfo) (q : JsString.t) (st : State) :
  spoken (trace (initializeInterview_settled env userInfo (Resolved q)) st)
  = (if isSynthesisSupported env then [q] else [])
  /\ isBotSpeaking (exec (initializeInterview_settled env userInfo (Resolved q)) st)
     = isSynthesisSupported env || isBotSpeaking st.
Proof.
  unfold initializeInterview_settled, when.
  destruct (isSynthesisSupported env); split; reflexivity.
Qed.

(** C4. With speech output supported, an opening question that the dialogue
    service delivers is handed to the speech-output service and the session
    is Speaking. The fallback greeting of the [catch] branch is not: no call
    to the speech-output service is made, the speaking flag is not set, and
    the session start ends Idle although speech output is supported. *)
Theorem opening_fallback_not_spoken
  (recognition : bool) (userInfo : UserInfo) (q : JsString.t) :
  let env := mkEnv true recognition in
  spoken (trace (initializeInterview env userInfo (Resolved q)) initialState) = [q]
  /\ status (sessionStart env userInfo (Resolved q)) = Speaking
  /\ conversation (sessionStart env userInfo Rejected)
     = [mkTurn bot (fallbackQuestion userInfo)]
  /\ spoken (trace (initializeInterview env userInfo Rejected) initialState) = []
  /\ isBotSpeaking (sessionStart env userInfo Rejected) = false
  /\ status (sessionStart env userInfo Rejected) = Idle.
Proof.
  repeat split; reflexivity.
Qed.

(** ** Ending the session *)

Lemma handleEndInterview_run (env : Env) (st : State) :
  handleEndInterview env st
  = (tt, st,
     StopListening
       :: (if isSynthesisSupported env then [SpeechSynthesisCancel] else [])
       ++ [OnEndInterview]).
Proof.
  unfold handleEndInterview, when.
  destruct (isSynthesisSupported env); reflexivity.
Qed.

(** C7, as stated, fails: a session that is Listening is ended, and the
    callback the transcription service holds is then handed a transcript. The
    handler runs as at any other time and a user turn is appended. *)
Lemma late_transcript_appends :
  let env := mkEnv false true in
  let userInfo := mkUserInfo (JsString.lit "Ana") (JsString.lit "Backend Engineer") [] [] in
  let idle := sessionStart env userInfo (Resolved (JsString.lit "Tell me about you")) in
  let st := exec (committed (clickMicrophone env true)) idle in
  let cb := HandleTranscript idle in
  let ended := exec (handleEndInterview env) st in
  status st = Listening
  /\ listened (trace (clickMicrophone env true) idle) = [cb]
  /\ trace (handleEndInterview env) st = [StopListening; OnEndInterview]
  /\ length (conversation ended) = 1
  /\ length (conversation (exec (committed (invoke cb (JsString.lit "hi"))) ended)) = 2
  /\ ~ lateTranscriptSuppressed env st cb (JsString.lit "hi").
Proof.
  repeat split; try reflexivity.
  unfold lateTranscriptSuppressed. simpl. discriminate.
Qed.

(** C7, amended. [handleEndInterview] changes no state variable and calls, in
    this order: [stopListening], the cancellation of speech output when it is
    supported, and the end-session callback; so the transcription service is
    told to stop before the callback runs, in a Listening state as in any
    other. The component has no guard against results that arrive later: a
    callback handed a transcript after that appends the user turn and
    requests a follow-up if the transcript is not blank, and leaves the
    conversation alone only if it is blank. *)
Theorem end_interview_stops_first (env : Env) (st : State) :
  handleEndInterview env st
  = (tt, st,
     StopListening
       :: (if isSynthesisSupported env then [SpeechSynthesisCancel] else [])
       ++ [OnEndInterview])
  /\ happensBefore isStopListening isOnEndInterview
       (trace (handleEndInterview env) st) = true
  /\ (forall cb text,
        JsString.blank text = false ->
        conversation (exec (committed (invoke cb text))
                           (exec (handleEndInterview env) st))
        = conversation st ++ [mkTurn user text]
        /\ In (GenerateNextQuestion text)
              (trace (committed (invoke cb text))
                     (exec (handleEndInterview env) st)))
  /\ (forall cb text,
        JsString.blank text = true ->
        lateTranscriptSuppressed env st cb text).
Proof.
  pose proof (handleEndInterview_run env st) as E.
  assert (X : exec (handleEndInterview env) st = st)
    by (unfold exec; rewrite E; reflexivity).
  split; [exact E|]. split; [|split].
  - unfold trace. rewrite E. destruct (isSynthesisSupported env); reflexivity.
  - intros [r] text B. rewrite X, conversation_committed, trace_committed.
    split; [apply (conversation_request r text st B)|].
    unfold trace, invoke, handleTranscript_request.
    rewrite JsStringFacts.guard_blank, B.
    unfold when. destruct (isListening r); simpl; auto.
  - intros [r] text B. unfold lateTranscriptSuppressed. cbv zeta.
    rewrite X, conversation_committed. unfold exec, invoke.
    rewrite (handleTranscript_request_blank r text st B). reflexivity.
Qed.

(** ** Listening without a transcription service *)

Lemma mockTranscript_not_blank : JsString.blank mockTranscript = false.
Proof. reflexivity. Qed.

(** What a handler does with a transcript that is not blank, for either
    outcome of the follow-up request. *)
Lemma answered_trace (env : Env) (r : State) (text : JsString.t) (o : Outcome) (st : State) :
  JsString.blank text = false ->
  trace (answered env (HandleTranscript r) text o) st
  = (if isListening r then [StopListening] else [])
    ++ GenerateNextQuestion text
    :: match o with
       | Resolved nextQuestion =>
           if isSynthesisSupported env then [Speak nextQuestion] else []
       | Rejected => [ConsoleError "Error generating response:"]
       end.
Proof.
  intros B. unfold trace, answered, invoke, handleTranscript_request.
  rewrite JsStringFacts.guard_blank, B.
  destruct o as [q|]; unfold handleTranscript_settled, when;
    destruct (isListening r); try destruct (isSynthesisSupported env);
    reflexivity.
Qed.

(** C8. Let the user start listening in an idle state. Without a
    transcription service the listening flag is set and one timer is armed,
    of 3000 ms, whose thunk hands the fixed [mockTranscript] to the
    [handleTranscript] of the render; with a service that starts, the same
    state results and the same [handleTranscript] is registered as the result
    callback. The canned transcript is not blank, so when the timer fires the
    run is the one of the service handing that text to its callback: the user
    turn is appended, the follow-up is requested with that text, and a
    question that comes back is appended and, if speech output is supported,
    spoken. *)
Theorem mock_transcript_pipeline
  (synthesis started : bool) (o : Outcome) (st : State) :
  status st = Idle ->
  let without := mkEnv synthesis false in
  let supported := mkEnv synthesis true in
  let cb := HandleTranscript st in
  let whenFired :=
    requested <- fire (Deliver cb mockTranscript) ;;
    when requested (handleTranscript_settled without o) in
  clickMicrophone without started st
  = (tt, setIsListening true st, [SetTimeout (Deliver cb mockTranscript) 3000])
  /\ clickMicrophone supported true st
     = (tt, setIsListening true st, [StartListening cb])
  /\ JsString.blank mockTranscript = false
  /\ (forall current,
        whenFired current = answered supported cb mockTranscript o current
        /\ conversation (exec (committed whenFired) current)
           = conversation current ++ mkTurn user mockTranscript
               :: match o with
                  | Resolved nextQuestion => [mkTurn bot nextQuestion]
                  | Rejected => []
                  end
        /\ trace (committed whenFired) current
           = GenerateNextQuestion mockTranscript
             :: match o with
                | Resolved nextQuestion =>
                    if synthesis then [Speak nextQuestion] else []
                | Rejected => [ConsoleError "Error generating response:"]
                end).
Proof.
  intros I without supported cb whenFired.
  pose proof I as I'. apply status_Idle in I'. destruct I' as (S & L & H).
  split; [exact (clickMicrophone_idle without started st I)|].
  split; [exact (clickMicrophone_idle supported true st I)|].
  split; [exact mockTranscript_not_blank|].
  intros current.
  assert (E : whenFired current = answered supported cb mockTranscript o current).
  { unfold whenFired, answered, fire, bind.
    destruct (invoke cb mockTranscript current) as [[requested st1] t1].
    destruct requested; [|reflexivity].
    destruct o; reflexivity. }
  split; [exact E|]. split.
  - rewrite conversation_committed. unfold exec. rewrite E.
    apply (conversation_handleTranscript supported st mockTranscript o current
             mockTranscript_not_blank).
  - rewrite trace_committed. unfold trace at 1. rewrite E.
    change (snd (answered supported cb mockTranscript o current))
      with (trace (answered supported cb mockTranscript o) current).
    unfold cb. rewrite (answered_trace supported st mockTranscript o current
                          mockTranscript_not_blank), H.
    reflexivity.
Qed.

Lemma mock_transcript_pipeline_witness :
  let env := mkEnv true false in
  let userInfo := mkUserInfo (JsString.lit "Ana") (JsString.lit "Backend Engineer") [] [] in
  let st := exec speakDone (sessionStart env userInfo Rejected) in
  status st = Idle
  /\ clickMicrophone env true st
     = (tt, setIsListening true st,
        [SetTimeout (Deliver (HandleTranscript st) mockTranscript) 3000]).
Proof.
  split; [reflexivity|].
  exact (proj1
    (mock_transcript_pipeline true true Rejected
       (exec speakDone
          (sessionStart (mkEnv true false)
             (mkUserInfo (JsString.lit "Ana") (JsString.lit "Backend Engineer") [] [])
             Rejected))
       eq_refl)).
Defined.

(** ** Selecting a turn of the history *)

Lemma selectable_iff (st : State) (i : nat) :
  selectable st i = true <->
  1 < length (conversation st) /\ i < length (conversation st).
Proof.
  unfold selectable, render; simpl.
  destruct (Nat.ltb_spec 1 (length (conversation st))) as [G|G].
  - rewrite existsb_exists. split.
    + intros (j & Hin & E). apply Nat.eqb_eq in E. subst j.
      apply in_seq in Hin. split; [exact G | lia].
    + intros (_ & Hi). exists i. split.
      * apply in_seq. lia.
      * apply Nat.eqb_refl.
  - simpl. split; [discriminate | lia].
Qed.

(** C9, as stated, fails: after one cycle the history has a button for each
    of the three turns, and the one of the last turn selects index 2, which
    is the length minus one. *)
Lemma last_turn_selectable :
  let env := mkEnv false true in
  let userInfo := mkUserInfo (JsString.lit "Ana") (JsString.lit "Backend Engineer") [] [] in
  let st := exec (runCycles env [mkCycle (JsString.lit "hi") (JsString.lit "Why?") initialState])
                 (sessionStart env userInfo Rejected) in
  length (conversation st) = 3
  /\ pills (render st) = [0; 1; 2]
  /\ selectable st 2 = true
  /\ activeMessageIndex (exec (committed (clickPill 2)) st) = 2
  /\ ~ selectionsBelowLast st.
Proof.
  repeat split; try reflexivity.
  intros H. specialize (H 2 eq_refl). simpl in H. lia.
Qed.

(** C9, amended. The render offers history buttons only when the conversation
    has more than one turn, and then one for every index from 0 up to the
    length minus one, included: the indices the user can select are those of
    the range [0, length). A click on a button stores its index as it is, and
    the render that follows does not move it. *)
Theorem selectable_indices (st : State) (i : nat) :
  (selectable st i = true <->
   1 < length (conversation st) /\ i < length (conversation st))
  /\ pills (render st)
     = (if 1 <? length (conversation st) then seq 0 (length (conversation st))
        else [])
  /\ committed (clickPill i) st = (tt, setActiveMessageIndex i st, []).
Proof.
  split; [apply selectable_iff|]. split; [reflexivity|].
  unfold committed, clickPill, update.
  rewrite useEffect_same_length; reflexivity.
Qed.

(** ** The microphone button *)

Lemma status_Listening (st : State) :
  status st = Listening <->
  isBotSpeaking st = false /\ isLoading st = false /\ isListening st = true.
Proof.
  unfold status.
  destruct (isBotSpeaking st), (isLoading st), (isListening st);
    split; intros H; try discriminate; auto;
    destruct H as (H1 & H2 & H3); discriminate.
Qed.

Lemma setIsListening_same (st : State) :
  setIsListening (isListening st) st = st.
Proof. destruct st; reflexivity. Qed.

Lemma status_stopped (st : State) :
  status st = Listening -> status (setIsListening false st) = Idle.
Proof.
  intros H. apply status_Listening in H. destruct H as (S & L & _).
  unfold status. simpl. rewrite S, L. reflexivity.
Qed.

(** The stop branch of [toggleListening]. *)
Lemma clickMicrophone_listening (env : Env) (started : bool) (st : State) :
  status st = Listening ->
  clickMicrophone env started st
  = (tt, setIsListening false st,
     if isRecognitionSupported env then [StopListening] else []).
Proof.
  intros H. apply status_Listening in H. destruct H as (S & L & I).
  unfold clickMicrophone, toggleListening. rewrite S, L, I. simpl.
  destruct (isRecognitionSupported env); reflexivity.
Qed.

(** X1. A click on the microphone while the session is Listening stops it:
    the listening flag is cleared and the session is Idle; the transcription
    service is told to stop if there is one, and nothing else is called. In
    particular a timer armed by the mock branch is not cleared. *)
Theorem stop_listening_click (env : Env) (started : bool) (st : State) :
  status st = Listening ->
  clickMicrophone env started st
  = (tt, setIsListening false st,
     if isRecognitionSupported env then [StopListening] else [])
  /\ status (exec (clickMicrophone env started) st) = Idle.
Proof.
  intros H. pose proof (clickMicrophone_listening env started st H) as E.
  split; [exact E|].
  unfold exec. rewrite E. apply status_stopped. exact H.
Qed.

Lemma stop_listening_click_witness :
  let st := setIsListening true initialState in
  status st = Listening
  /\ status (exec (clickMicrophone (mkEnv true true) true) st) = Idle.
Proof.
  split; [reflexivity|].
  exact (proj2 (stop_listening_click (mkEnv true true) true
                  (setIsListening true initialState) eq_refl)).
Defined.

(** X2. A click on the microphone in an idle session, with a transcription
    service: the service is asked to start exactly once, and the session is
    Listening only if the service answers that it started; if it answers
    that it did not, every state variable keeps its value and the session
    stays Idle. *)
Theorem start_listening_click (synthesis started : bool) (st : State) :
  status st = Idle ->
  let env := mkEnv synthesis true in
  trace (clickMicrophone env started) st = [StartListening (HandleTranscript st)]
  /\ status (exec (clickMicrophone env started) st)
     = (if started then Listening else Idle)
  /\ (started = false -> exec (clickMicrophone env started) st = st).
Proof.
  intros I env.
  pose proof (clickMicrophone_idle env started st I) as E. simpl in E.
  apply status_Idle in I. destruct I as (S & L & H).
  unfold trace, exec. rewrite E. simpl.
  split; [reflexivity|]. split.
  - unfold status. simpl. rewrite S, L. destruct started; reflexivity.
  - intros ->. rewrite <- H. apply setIsListening_same.
Qed.

Lemma start_listening_click_witness :
  status initialState = Idle
  /\ status (exec (clickMicrophone (mkEnv false true) false) initialState) = Idle.
Proof.
  split; [reflexivity|].
  exact (proj1 (proj2 (start_listening_click false false initialState eq_refl))).
Defined.

(** The start branch followed by the stop branch. *)
Lemma clickMicrophone_twice (env : Env) (st : State) :
  status st = Idle ->
  (clickMicrophone env true ;; clickMicrophone env true) st
  = (tt, st,
     if isRecognitionSupported env
     then [StartListening (HandleTranscript st); StopListening]
     else [SetTimeout (Deliver (HandleTranscript st) mockTranscript) 3000]).
Proof.
  intros I.
  assert (L : status (setIsListening true st) = Listening).
  { apply status_Idle in I. destruct I as (S & L & H).
    unfold status. simpl. rewrite S, L. reflexivity. }
  pose proof (clickMicrophone_idle env true st I) as E1.
  pose proof (clickMicrophone_listening env true (setIsListening true st) L) as E2.
  assert (R : setIsListening false (setIsListening true st) = st).
  { apply status_Idle in I. destruct I as (_ & _ & H).
    destruct st; simpl in *. subst. reflexivity. }
  unfold bind.
  destruct (isRecognitionSupported env); rewrite E1, E2, R; reflexivity.
Qed.

(** X3. Two clicks on the microphone in an idle session, the service having
    started, bring back the state the session was in. The calls made are a
    start and a stop when there is a transcription service; without one, the
    only call is the arming of the timer, which the second click leaves
    armed. *)
Theorem toggle_twice_round_trip (env : Env) (st : State) :
  status st = Idle ->
  let twice := clickMicrophone env true ;; clickMicrophone env true in
  status (exec (clickMicrophone env true) st) = Listening
  /\ exec twice st = st
  /\ trace twice st
     = (if isRecognitionSupported env
        then [StartListening (HandleTranscript st); StopListening]
        else [SetTimeout (Deliver (HandleTranscript st) mockTranscript) 3000]).
Proof.
  intros I twice.
  pose proof (clickMicrophone_twice env st I) as E. fold twice in E.
  pose proof (clickMicrophone_idle env true st I) as E1.
  apply status_Idle in I. destruct I as (S & L & _).
  split.
  - unfold exec. rewrite E1.
    destruct (isRecognitionSupported env); unfold status; simpl;
      rewrite S, L; reflexivity.
  - unfold exec, trace. rewrite E. split; reflexivity.
Qed.

Lemma toggle_twice_round_trip_witness :
  status initialState = Idle
  /\ exec (clickMicrophone (mkEnv true false) true ;; clickMicrophone (mkEnv true false) true)
          initialState
     = initialState.
Proof.
  split; [reflexivity|].
  exact (proj1 (proj2 (toggle_twice_round_trip (mkEnv true false) initialState eq_refl))).
Defined.

(** X4. The microphone button is disabled in exactly the states in which a
    click on it would do nothing: when it is enabled, a click changes the
    listening flag or calls a collaborator. *)
Theorem microphone_disabled_iff_inert (env : Env) (st : State) :
  micDisabled (render st) = true <->
  clickMicrophone env true st = (tt, st, []).
Proof.
  split.
  - intros D. apply toggleListening_guard. exact D.
  - unfold clickMicrophone, toggleListening, render. simpl.
    destruct (isBotSpeaking st || isLoading st); [reflexivity|].
    destruct (isListening st) eqn:L; simpl.
    + destruct (isRecognitionSupported env); simpl; intros E;
        [discriminate|].
      injection E as E. apply (f_equal isListening) in E. simpl in E.
      congruence.
    + destruct (isRecognitionSupported env); simpl; discriminate.
Qed.

(** ** What a transcript leaves in the state *)

Lemma request_state (r : State) (text : JsString.t) (st : State) :
  JsString.blank text = false ->
  exec (handleTranscript_request r text) st
  = setIsLoading true
      ((if isListening r then setIsListening false else fun s => s)
         (setConversation (fun prev => prev ++ [mkTurn user text])
            (setTranscript text st))).
Proof.
  intros B. unfold exec, handleTranscript_request.
  rewrite JsStringFacts.guard_blank, B.
  unfold when. destruct (isListening r); reflexivity.
Qed.

Lemma nth_error_last {A : Type} (l : list A) (a : A) :
  nth_error (l ++ [a]) (length (l ++ [a]) - 1) = Some a.
Proof.
  rewrite length_app. simpl.
  replace (length l + 1 - 1) with (length l) by lia.
  rewrite nth_error_app2 by lia. rewrite Nat.sub_diag. reflexivity.
Qed.

(** The render that follows an append shows the appended turn. *)
Lemma activeMessage_appended (previous st : State) (turns : list Turn) (t : Turn) :
  conversation st = turns ++ [t] ->
  length (conversation previous) <> length (conversation st) ->
  activeMessage (useEffect_activeMessageIndex previous st) = Some t.
Proof.
  intros C N. unfold activeMessage.
  rewrite useEffect_latest, conversation_useEffect; try exact N.
  - rewrite C. apply nth_error_last.
  - rewrite C. destruct turns; discriminate.
Qed.

(** X5. A transcript that is not blank is kept as it was heard: the guard
    trims a copy, but the text of the appended user turn and the
    [transcript] variable are the untrimmed string. After the handler has
    made its request the session is loading, the microphone is disabled, and
    the user turn is the one on display. *)
Theorem transcript_kept_as_heard (cb : Callback) (text : JsString.t) (st : State) :
  JsString.blank text = false ->
  let st' := exec (committed (invoke cb text)) st in
  conversation st' = conversation st ++ [mkTurn user text]
  /\ transcript st' = text
  /\ isLoading st' = true
  /\ micDisabled (render st') = true
  /\ activeMessage st' = Some (mkTurn user text).
Proof.
  intros B st'. destruct cb as [r].
  assert (C : conversation (exec (handleTranscript_request r text) st)
              = conversation st ++ [mkTurn user text])
    by (apply conversation_request; exact B).
  assert (E : st' = useEffect_activeMessageIndex st
                      (exec (handleTranscript_request r text) st)).
  { unfold st', exec, committed, invoke.
    destruct (handleTranscript_request r text st) as [[b s] t]. reflexivity. }
  assert (F : transcript st' = text /\ isLoading st' = true).
  { rewrite E, request_state by exact B.
    unfold useEffect_activeMessageIndex.
    repeat match goal with
           | |- context [if ?b then _ else _] => destruct b
           end; split; reflexivity. }
  destruct F as (F1 & F2).
  split; [rewrite E, conversation_useEffect; exact C|].
  split; [exact F1|]. split; [exact F2|]. split.
  - unfold render; simpl. rewrite F2. apply orb_true_r.
  - rewrite E. apply (activeMessage_appended st _ (conversation st) _ C).
    rewrite C, length_app. simpl. lia.
Qed.

Lemma transcript_kept_as_heard_witness :
  let text := JsString.lit "  five years " in
  JsString.blank text = false
  /\ transcript (exec (committed (invoke (HandleTranscript initialState) text))
                      initialState) = text.
Proof.
  split; [reflexivity|].
  exact (proj1 (proj2 (transcript_kept_as_heard (HandleTranscript initialState)
                         (JsString.lit "  five years ") initialState eq_refl))).
Defined.



(** X7. A click on a history button puts the turn of that index on display
    and makes that button, and no other, the highlighted one; the
    conversation, the buttons offered and the status are as before. *)
Theorem pill_click_displays_turn (st : State) (i : nat) :
  selectable st i = true ->
  let st' := exec (committed (clickPill i)) st in
  (exists t, nth_error (conversation st) i = Some t /\ activeMessage st' = Some t)
  /\ (forall j, highlighted st' j = true <-> j = i)
  /\ conversation st' = conversation st
  /\ pills (render st') = pills (render st)
  /\ status st' = status st.
Proof.
  intros S st'.
  assert (E : st' = setActiveMessageIndex i st).
  { unfold st', exec, committed, clickPill, update.
    rewrite useEffect_same_length; reflexivity. }
  apply selectable_iff in S. destruct S as (_ & Hi).
  rewrite E. split; [|split; [|repeat split]].
  - destruct (nth_error (conversation st) i) as [t|] eqn:N.
    + exists t. split; [reflexivity | exact N].
    + apply nth_error_None in N. lia.
  - intros j. unfold highlighted. simpl. apply Nat.eqb_eq.
Qed.

Lemma pill_click_displays_turn_witness :
  let st := exec (runCycles (mkEnv false true)
                    [mkCycle (JsString.lit "hi") (JsString.lit "Why?") initialState])
                 (sessionStart (mkEnv false true)
                    (mkUserInfo (JsString.lit "Ana") (JsString.lit "Backend Engineer") [] [])
                    (Resolved (JsString.lit "Welcome"))) in
  selectable st 1 = true
  /\ activeMessage (exec (committed (clickPill 1)) st)
     = Some (mkTurn user (JsString.lit "hi")).
Proof.
  split; [reflexivity|].
  destruct (pill_click_displays_turn
              (exec (runCycles (mkEnv false true)
                       [mkCycle (JsString.lit "hi") (JsString.lit "Why?") initialState])
                    (sessionStart (mkEnv false true)
                       (mkUserInfo (JsString.lit "Ana")
                                   (JsString.lit "Backend Engineer") [] [])
                       (Resolved (JsString.lit "Welcome"))))
              1 eq_refl) as ((t & N & A) & _).
  rewrite A. rewrite <- N. reflexivity.
Defined.

(** ** The answer of the dialogue service *)

(** X8. When a follow-up request succeeds, the question is appended as a bot
    turn and the loading flag is cleared. With speech output the question,
    and nothing else, is handed to the speech-output service and the session
    is Speaking, the microphone disabled, until the completion callback runs;
    without it no utterance is made and the speaking flag is not touched. *)
Theorem follow_up_shown_and_spoken (env : Env) (q : JsString.t) (st : State) :
  let st' := exec (handleTranscript_settled env (Resolved q)) st in
  let calls := trace (handleTranscript_settled env (Resolved q)) st in
  conversation st' = conversation st ++ [mkTurn bot q]
  /\ botResponse st' = q
  /\ isLoading st' = false
  /\ calls = (if isSynthesisSupported env then [Speak q] else [])
  /\ (if isSynthesisSupported env
      then status st' = Speaking
           /\ micDisabled (render st') = true
           /\ isBotSpeaking (exec speakDone st') = false
           /\ micDisabled (render (exec speakDone st')) = false
      else isBotSpeaking st' = isBotSpeaking st).
Proof.
  unfold handleTranscript_settled, when.
  destruct (isSynthesisSupported env); repeat split; reflexivity.
Qed.

(** X9. The mount effect resets the dialogue service, gives it the profile
    and only then requests the opening question; while the request is
    pending the session is Processing and the microphone disabled. Whether
    the request succeeds or fails, the state is afterwards marked connected
    and not loading, the first turn is on display, and [botResponse] is its
    text. *)
Theorem session_start_sequence (env : Env) (userInfo : UserInfo) (o : Outcome) :
  let pending := exec (committed (initializeInterview_request userInfo)) initialState in
  let opening := match o with
                 | Resolved initialQuestion => initialQuestion
                 | Rejected => fallbackQuestion userInfo
                 end in
  trace (initializeInterview env userInfo o) initialState
  = [ResetConversation; InitializeWithUserInfo userInfo; GenerateInitialQuestion]
    ++ match o with
       | Resolved initialQuestion =>
           if isSynthesisSupported env then [Speak initialQuestion] else []
       | Rejected => [ConsoleError "Error initializing interview:"]
       end
  /\ status pending = Processing
  /\ micDisabled (render pending) = true
  /\ isConnected (sessionStart env userInfo o) = true
  /\ isLoading (sessionStart env userInfo o) = false
  /\ botResponse (sessionStart env userInfo o) = opening
  /\ activeMessage (sessionStart env userInfo o) = Some (mkTurn bot opening).
Proof.
  destruct o as [q|]; simpl.
  - unfold sessionStart, initializeInterview, initializeInterview_settled,
      initializeInterview_request, when.
    destruct (isSynthesisSupported env); repeat split; reflexivity.
  - repeat split; reflexivity.
Qed.

(** ** Consequences of the captured listening flag *)

(** X10. A whole turn of the interview: the user starts listening in an
    idle session, the service starts, hands over a transcript that is not
    blank, the dialogue service answers, and the utterance, if any, ends.
    The session is then Listening, not Idle: the handler never cleared the
    listening flag. The next click on the microphone therefore takes the
    stop branch: it starts nothing, and the session needs one more click to
    listen again. *)
Theorem turn_leaves_microphone_on
  (env : Env) (text q : JsString.t) (st : State) :
  status st = Idle ->
  JsString.blank text = false ->
  let clicked := exec (committed (clickMicrophone env true)) st in
  let answered' :=
    exec (committed (answered env (HandleTranscript st) text (Resolved q))) clicked in
  let quiet := exec speakDone answered' in
  conversation quiet = conversation st ++ [mkTurn user text; mkTurn bot q]
  /\ status quiet = Listening
  /\ clickMicrophone env true quiet
     = (tt, setIsListening false quiet,
        if isRecognitionSupported env then [StopListening] else [])
  /\ status (exec (clickMicrophone env true) quiet) = Idle.
Proof.
  intros I B clicked answered' quiet.
  pose proof I as I'. apply status_Idle in I'. destruct I' as (S & L & H).
  assert (Ec : clicked = setIsListening true st) by (apply clicked_idle; exact I).
  assert (Ea : answered' = useEffect_activeMessageIndex clicked
                 (exec (handleTranscript env st text (Resolved q)) clicked)).
  { unfold answered', exec, committed, answered, invoke, handleTranscript.
    destruct (bind _ _ clicked) as [[b s] t]. reflexivity. }
  assert (C : conversation quiet
              = conversation st ++ [mkTurn user text; mkTurn bot q]).
  { unfold quiet, speakDone, exec, update. simpl.
    rewrite Ea, conversation_useEffect,
      (conversation_handleTranscript env st text (Resolved q) clicked B), Ec.
    reflexivity. }
  assert (F : isListening answered' = true /\ isLoading answered' = false).
  { rewrite Ea, isListening_useEffect, isLoading_useEffect, Ec.
    unfold exec, handleTranscript, bind, handleTranscript_request,
      handleTranscript_settled, when.
    rewrite JsStringFacts.guard_blank, B, H.
    destruct (isSynthesisSupported env); simpl; auto. }
  destruct F as (F1 & F2).
  assert (Q : status quiet = Listening).
  { apply status_Listening. unfold quiet, speakDone, exec, update. simpl. auto. }
  split; [exact C|]. split; [exact Q|].
  pose proof (clickMicrophone_listening env true quiet Q) as E.
  split; [exact E|].
  unfold exec. rewrite E. apply status_stopped. exact Q.
Qed.

Lemma turn_leaves_microphone_on_witness :
  let env := mkEnv true true in
  let st := exec speakDone
              (sessionStart env
                 (mkUserInfo (JsString.lit "Ana") (JsString.lit "Backend Engineer") [] [])
                 (Resolved (JsString.lit "Welcome"))) in
  status st = Idle
  /\ JsString.blank (JsString.lit "hi") = false
  /\ status (exec speakDone
               (exec (committed (answered env (HandleTranscript st) (JsString.lit "hi")
                                   (Resolved (JsString.lit "Why?"))))
                     (exec (committed (clickMicrophone env true)) st)))
     = Listening.
Proof.
  split; [reflexivity|]. split; [reflexivity|].
  exact (proj1 (proj2 (turn_leaves_microphone_on (mkEnv true true)
                         (JsString.lit "hi") (JsString.lit "Why?")
                         (exec speakDone
                            (sessionStart (mkEnv true true)
                               (mkUserInfo (JsString.lit "Ana")
                                           (JsString.lit "Backend Engineer") [] [])
                               (Resolved (JsString.lit "Welcome"))))
                         eq_refl eq_refl))).
Defined.

(** X11. Without a transcription service, a user who starts listening and
    changes their mind is answered for all the same: the second click clears
    the listening flag and calls nothing, the timer stays armed, and when it
    fires the canned transcript is appended as a user turn and the follow-up
    is requested, in a session that was Idle again. *)
Theorem mock_answer_survives_cancel (synthesis : bool) (st : State) :
  status st = Idle ->
  let env := mkEnv synthesis false in
  let k := Deliver (HandleTranscript st) mockTranscript in
  let twice := clickMicrophone env true ;; clickMicrophone env true in
  exec twice st = st
  /\ timers (trace twice st) = [(k, 3000)]
  /\ existsb isStopListening (trace twice st) = false
  /\ conversation (exec (committed (fire k)) st)
     = conversation st ++ [mkTurn user mockTranscript]
  /\ trace (committed (fire k)) st = [GenerateNextQuestion mockTranscript]
  /\ status (exec (committed (fire k)) st) = Processing.
Proof.
  intros I env k twice.
  pose proof (clickMicrophone_twice env st I) as E. simpl in E.
  unfold exec at 1, trace at 1 2. fold twice in E. rewrite E. simpl.
  split; [reflexivity|]. split; [reflexivity|]. split; [reflexivity|].
  assert (C : conversation (exec (committed (fire k)) st)
              = conversation st ++ [mkTurn user mockTranscript]).
  { unfold k, fire, invoke. rewrite conversation_committed.
    apply conversation_request. exact mockTranscript_not_blank. }
  apply status_Idle in I. destruct I as (S & L & H).
  split; [exact C|]. split.
  - rewrite trace_committed. unfold trace, fire, invoke, handleTranscript_request.
    rewrite H. reflexivity.
  - unfold k, fire, invoke, status.
    rewrite exec_committed, isBotSpeaking_useEffect, isLoading_useEffect,
      (request_state st mockTranscript st mockTranscript_not_blank), H.
    simpl. rewrite S. reflexivity.
Qed.

Lemma mock_answer_survives_cancel_witness :
  status initialState = Idle
  /\ status (exec (committed (fire (Deliver (HandleTranscript initialState) mockTranscript)))
                  initialState) = Processing.
Proof.
  split; [reflexivity|].
  exact (proj2 (proj2 (proj2 (proj2 (proj2
    (mock_answer_survives_cancel true initialState eq_refl)))))).
Defined.

(** ** Sessions *)

Lemma after_eq {A : Type} (m : M A) (w : World) :
  after m w
  = (mkWorld (useEffect_activeMessageIndex (component w) (exec m (component w)))
             (openingPending w || opens (trace m (component w)))
             (followUpsPending w + followUps (trace m (component w)))
             (handlers w ++ listened (trace m (component w)))
             (armed w ++ map fst (timers (trace m (component w))))
             (utterances w + length (spoken (trace m (component w)))),
     trace m (component w)).
Proof.
  unfold after, committed, exec, trace.
  destruct (m (component w)) as [[a st] calls]. reflexivity.
Qed.

(** What holds when the component is mounted and is kept by every event
    holds in every world of a session. *)
Lemma reachable_ind (env : Env) (userInfo : UserInfo) (P : World -> Prop) :
  P (mounted userInfo) ->
  (forall e w w' calls,
     P w -> step env userInfo e w = Some (w', calls) -> P w') ->
  forall w, reachable env userInfo w -> P w.
Proof.
  intros Base Step w [es R]. revert R.
  generalize (mounted userInfo) Base. clear Base.
  induction es as [|e es IH]; intros w0 P0; simpl.
  - intros [= <-]. exact P0.
  - destruct (step env userInfo e w0) as [[w1 calls]|] eqn:S; [|discriminate].
    apply IH. apply (Step e w0 w1 calls P0 S).
Qed.

(** Reading an event off [step]: which handler ran, on which state. *)
Ltac step_cases H :=
  match type of H with
  | step _ _ ?e ?w = Some _ =>
      destruct e; unfold step in H;
      repeat match type of H with
             | context [if ?b then _ else _] => destruct b eqn:?
             | context [match ?x with _ => _ end] => destruct x eqn:?
             end;
      try discriminate H;
      rewrite after_eq in H; injection H as <- <-;
      cbn [component openingPending followUpsPending handlers armed utterances]
  end.

(** Running a handler body on a symbolic state, branch by branch. *)
Ltac crunch :=
  repeat progress
    (unfold exec, trace, result, clickMicrophone, toggleListening, invoke, fire,
       handleTranscript_request, handleTranscript_settled,
       initializeInterview_settled, speakDone, clickPill, handleEndInterview,
       when, bind, update, call, ret;
     repeat match goal with
            | |- context [if ?b then _ else _] => destruct b eqn:?
            | |- context [match ?o with Resolved _ => _ | Rejected => _ end] =>
                destruct o
            | |- context [match ?cb with HandleTranscript _ => _ end] =>
                destruct cb
            | |- context [match ?k with Deliver _ _ => _ end] =>
                destruct k
            end);
  simpl.

Lemma step_extends (env : Env) (userInfo : UserInfo) (e : Event) (w w' : World)
  (calls : list Call) :
  openingPending w = false ->
  step env userInfo e w = Some (w', calls) ->
  openingPending w' = false
  /\ exists suffix,
       conversation (component w') = conversation (component w) ++ suffix.
Proof.
  intros O S. step_cases S; rewrite ?conversation_useEffect, ?O;
    try congruence; crunch; (split; [reflexivity|]);
    solve [ exists []; rewrite app_nil_r; reflexivity | eexists; reflexivity ].
Qed.

(** X12. Once the opening request has settled, the conversation is
    append-only: whatever events follow (clicks, results, timers firing,
    follow-ups settling either way, utterances ending, the end of the
    session), the conversation they lead to is the earlier one with turns
    added at its end. No turn is ever removed, changed or moved. *)
Theorem conversation_append_only
  (env : Env) (userInfo : UserInfo) (es : list Event) (w w' : World) :
  openingPending w = false ->
  run env userInfo es w = Some w' ->
  exists suffix,
    conversation (component w') = conversation (component w) ++ suffix.
Proof.
  revert w. induction es as [|e es IH]; intros w O R; simpl in R.
  - injection R as <-. exists []. rewrite app_nil_r. reflexivity.
  - destruct (step env userInfo e w) as [[w1 calls]|] eqn:S; [|discriminate].
    destruct (step_extends env userInfo e w w1 calls O S) as (O1 & s1 & E1).
    destruct (IH w1 O1 R) as (s2 & E2).
    exists (s1 ++ s2). rewrite E2, E1, app_assoc. reflexivity.
Qed.

Lemma index_in_range_useEffect (old s : State) :
  (length (conversation s) = length (conversation old) ->
   conversation s = [] \/ activeMessageIndex s < length (conversation s)) ->
  conversation (useEffect_activeMessageIndex old s) = []
  \/ activeMessageIndex (useEffect_activeMessageIndex old s)
     < length (conversation (useEffect_activeMessageIndex old s)).
Proof.
  intros H. unfold useEffect_activeMessageIndex.
  destruct (Nat.eqb_spec (length (conversation old)) (length (conversation s)))
    as [E|N].
  - apply H. symmetry. exact E.
  - destruct (conversation s) as [|t l] eqn:C; simpl.
    + left. exact C.
    + right. rewrite C. simpl. lia.
Qed.

Lemma settledWell_step (env : Env) (userInfo : UserInfo) (e : Event) (w w' : World)
  (calls : list Call) :
  settledWell w -> step env userInfo e w = Some (w', calls) -> settledWell w'.
Proof.
  intros [Hb Hc] S. split.
  - destruct (openingPending w) eqn:O.
    + step_cases S; rewrite ?conversation_useEffect, ?O; simpl;
        try (left; reflexivity); try congruence.
      right. crunch; eauto.
    + destruct Hb as [Hb|(q & rest & C)]; [discriminate|].
      destruct (step_extends env userInfo e w w' calls O S) as (_ & s & E).
      right. exists q, (rest ++ s). rewrite E, C. reflexivity.
  - step_cases S; apply index_in_range_useEffect; crunch.
    all: rewrite ?length_app; simpl; intros E; try lia; try exact Hc.
    all: try (right; destruct Hc as [C|Hc]; [rewrite C in E; discriminate | lia]).
    match goal with
    | H : selectable _ _ = true |- _ =>
        apply selectable_iff in H; right; apply H
    end.
Qed.

Lemma settledWell_mounted (userInfo : UserInfo) : settledWell (mounted userInfo).
Proof. split; left; reflexivity. Qed.

(** X13. In every world of a session in which the opening request has
    settled, the conversation starts with a bot turn, and the active index
    is the index of a turn: the active message is never [null] again and the
    current-turn panel is always rendered. *)
Theorem interviewer_opens_and_panel_shows
  (env : Env) (userInfo : UserInfo) (w : World) :
  reachable env userInfo w ->
  openingPending w = false ->
  (exists q rest, conversation (component w) = mkTurn bot q :: rest)
  /\ (exists t, activeMessage (component w) = Some t)
  /\ panel (render (component w)) <> None.
Proof.
  intros R O.
  assert (I : settledWell w).
  { clear O. revert w R. apply reachable_ind.
    - apply settledWell_mounted.
    - apply settledWell_step. }
  destruct I as [[Hb|(q & rest & C)] Hc]; [congruence|].
  assert (A : exists t, activeMessage (component w) = Some t).
  { apply activeMessage_Some_iff. destruct Hc as [Hc|Hc]; [congruence | exact Hc]. }
  split; [eauto|]. split; [exact A|].
  destruct A as (t & A). simpl. rewrite A. discriminate.
Qed.





Lemma Forall_without {A : Type} (P : A -> Prop) (n : nat) (l : list A) :
  Forall P l -> Forall P (without n l).
Proof.
  intros H. revert n. induction H as [|a l Pa H IH]; intros n.
  - destruct n; constructor.
  - destruct n; [exact H|]. constructor; [exact Pa | apply IH].
Qed.

Lemma handedOutIdle_step (env : Env) (userInfo : UserInfo) (e : Event) (w w' : World)
  (calls : list Call) :
  handedOutIdle w -> step env userInfo e w = Some (w', calls) -> handedOutIdle w'.
Proof.
  intros [Hh Ha] S.
  step_cases S; split; apply Forall_app; split;
    try exact Hh; try exact Ha; try (apply Forall_without; exact Ha);
    crunch; repeat constructor; auto;
    simpl; apply negb_true_iff; assumption.
Qed.

Lemma handedOutIdle_mounted (userInfo : UserInfo) : handedOutIdle (mounted userInfo).
Proof. split; constructor. Qed.

Lemma invoke_idle (cb : Callback) (text : JsString.t) (st : State) :
  handlerIdle cb ->
  existsb isStopListening (trace (invoke cb text) st) = false
  /\ isListening (exec (invoke cb text) st) = isListening st
  /\ listened (trace (invoke cb text) st) = []
  /\ timers (trace (invoke cb text) st) = [].
Proof.
  destruct cb as [r]. simpl. intros I.
  unfold trace, exec, handleTranscript_request. rewrite I.
  destruct (negb _); repeat split; reflexivity.
Qed.

(** X15. In every world of a session, when a transcript is handed to a
    [handleTranscript], by the transcription service or by the mock timer,
    the handler does not call [stopListening] and leaves the listening flag
    as it is, whatever the transcript: every [handleTranscript] ever handed
    out belongs to a render that was not listening. *)
Theorem delivery_never_stops_listening
  (env : Env) (userInfo : UserInfo) (w : World) (e : Event) (w' : World)
  (calls : list Call) :
  reachable env userInfo w ->
  delivery e = true ->
  step env userInfo e w = Some (w', calls) ->
  existsb isStopListening calls = false
  /\ isListening (component w') = isListening (component w)
  /\ handlers w' = handlers w.
Proof.
  intros R D S.
  pose proof (reachable_ind env userInfo handedOutIdle
                (handedOutIdle_mounted userInfo)
                (handedOutIdle_step env userInfo) w R) as [Hh Ha].
  destruct e as [o|started|n txt|n|o| |i| ]; try discriminate D; unfold step in S.
  - destruct (nth_error (handlers w) n) as [cb|] eqn:N; [|discriminate].
    assert (I : handlerIdle cb).
    { apply nth_error_In in N. rewrite Forall_forall in Hh. apply Hh, N. }
    rewrite after_eq in S. injection S as <- <-. simpl.
    rewrite isListening_useEffect.
    destruct (invoke_idle cb txt (component w) I) as (A & B & C & _).
    rewrite A, B, C, app_nil_r. auto.
  - destruct (nth_error (armed w) n) as [[cb canned]|] eqn:N; [|discriminate].
    assert (I : handlerIdle cb).
    { apply nth_error_In in N. rewrite Forall_forall in Ha. apply (Ha _ N). }
    rewrite after_eq in S. injection S as <- <-. simpl.
    rewrite isListening_useEffect.
    destruct (invoke_idle cb canned (component w) I) as (A & B & C & _).
    rewrite A, B, C, app_nil_r. auto.
Qed.

Lemma backed_step (env : Env) (userInfo : UserInfo) (e : Event) (w w' : World)
  (calls : list Call) :
  backed w -> step env userInfo e w = Some (w', calls) -> backed w'.
Proof.
  intros [Hl Hs] S.
  step_cases S; unfold backed;
    cbn [component openingPending followUpsPending handlers armed utterances];
    rewrite ?isLoading_useEffect, ?isBotSpeaking_useEffect;
    crunch; rewrite ?orb_false_r, ?Nat.add_0_r;
    (split; intros X; try discriminate X; try lia; auto).
Qed.

Lemma backed_mounted (userInfo : UserInfo) : backed (mounted userInfo).
Proof. split; intros X; [left; reflexivity | discriminate X]. Qed.

(** X16. In every world of a session, the microphone button is disabled only
    while something is outstanding that will enable it again: the opening
    request, a follow-up request, or an utterance whose completion callback
    has not run. With nothing outstanding the button is enabled. *)
Theorem disabled_only_while_outstanding
  (env : Env) (userInfo : UserInfo) (w : World) :
  reachable env userInfo w ->
  micDisabled (render (component w)) = true ->
  openingPending w = true \/ 0 < followUpsPending w \/ 0 < utterances w.
Proof.
  intros R D.
  pose proof (reachable_ind env userInfo backed (backed_mounted userInfo)
                (backed_step env userInfo) w R) as [Hl Hs].
  simpl in D. apply orb_true_iff in D. destruct D as [D|D].
  - right. right. apply Hs, D.
  - destruct (Hl D); auto.
Qed.

(** *** Sample sessions *)

Lemma reachable_worldAfter (env : Env) (userInfo : UserInfo) (es : list Event) :
  run env userInfo es (mounted userInfo) <> None ->
  reachable env userInfo (worldAfter env userInfo es).
Proof.
  intros H. exists es. unfold worldAfter.
  destruct (run env userInfo es (mounted userInfo)); [reflexivity | contradiction].
Qed.

Lemma conversation_append_only_witness :
  let env := mkEnv true true in
  let userInfo := mkUserInfo (JsString.lit "Ana") (JsString.lit "Backend Engineer") [] [] in
  let w := worldAfter env userInfo [OpeningSettles (Resolved (JsString.lit "Welcome")); UtteranceEnds] in
  let es := [MicrophoneClicked true; ResultArrives 0 (JsString.lit "hi");
             PillClicked 0; FollowUpSettles (Resolved (JsString.lit "Why?"))] in
  let w' := worldAfter env userInfo ([OpeningSettles (Resolved (JsString.lit "Welcome")); UtteranceEnds] ++ es) in
  openingPending w = false
  /\ run env userInfo es w = Some w'
  /\ exists suffix,
       conversation (component w') = conversation (component w) ++ suffix.
Proof.
  split; [vm_compute; reflexivity|]. split; [vm_compute; reflexivity|].
  apply (conversation_append_only (mkEnv true true)
           (mkUserInfo (JsString.lit "Ana") (JsString.lit "Backend Engineer") [] [])
           [MicrophoneClicked true; ResultArrives 0 (JsString.lit "hi");
            PillClicked 0; FollowUpSettles (Resolved (JsString.lit "Why?"))]);
    vm_compute; reflexivity.
Defined.

Lemma interviewer_opens_and_panel_shows_witness :
  let env := mkEnv true true in
  let userInfo := mkUserInfo (JsString.lit "Ana") (JsString.lit "Backend Engineer") [] [] in
  let w := worldAfter env userInfo
             [OpeningSettles Rejected; MicrophoneClicked true;
              ResultArrives 0 (JsString.lit "hi"); PillClicked 0] in
  openingPending w = false
  /\ (exists q rest, conversation (component w) = mkTurn bot q :: rest)
  /\ (exists t, activeMessage (component w) = Some t)
  /\ panel (render (component w)) <> None.
Proof.
  split; [vm_compute; reflexivity|].
  apply (interviewer_opens_and_panel_shows (mkEnv true true)
           (mkUserInfo (JsString.lit "Ana") (JsString.lit "Backend Engineer") [] [])).
  - apply reachable_worldAfter. vm_compute. discriminate.
  - vm_compute. reflexivity.
Defined.


Lemma delivery_never_stops_listening_witness :
  let env := mkEnv false true in
  let userInfo := mkUserInfo (JsString.lit "Ana") (JsString.lit "Backend Engineer") [] [] in
  let w := worldAfter env userInfo [OpeningSettles Rejected; MicrophoneClicked true] in
  let e := ResultArrives 0 (JsString.lit "hi") in
  status (component w) = Listening
  /\ delivery e = true
  /\ match step env userInfo e w with
     | Some (w', calls) =>
         existsb isStopListening calls = false
         /\ isListening (component w') = isListening (component w)
         /\ handlers w' = handlers w
     | None => False
     end.
Proof.
  split; [vm_compute; reflexivity|]. split; [reflexivity|].
  destruct (step (mkEnv false true)
              (mkUserInfo (JsString.lit "Ana") (JsString.lit "Backend Engineer") [] [])
              (ResultArrives 0 (JsString.lit "hi"))
              (worldAfter (mkEnv false true)
                 (mkUserInfo (JsString.lit "Ana") (JsString.lit "Backend Engineer") [] [])
                 [OpeningSettles Rejected; MicrophoneClicked true]))
    as [[w' calls]|] eqn:S.
  - apply (delivery_never_stops_listening (mkEnv false true)
             (mkUserInfo (JsString.lit "Ana") (JsString.lit "Backend Engineer") [] [])
             _ (ResultArrives 0 (JsString.lit "hi")) w' calls).
    + apply reachable_worldAfter. vm_compute. discriminate.
    + reflexivity.
    + exact S.
  - vm_compute in S. discriminate S.
Defined.

Lemma disabled_only_while_outstanding_witness :
  let env := mkEnv true true in
  let userInfo := mkUserInfo (JsString.lit "Ana") (JsString.lit "Backend Engineer") [] [] in
  let w := worldAfter env userInfo [OpeningSettles (Resolved (JsString.lit "Welcome"))] in
  micDisabled (render (component w)) = true
  /\ utterances w = 1
  /\ (openingPending w = true \/ 0 < followUpsPending w \/ 0 < utterances w).
Proof.
  split; [vm_compute; reflexivity|]. split; [vm_compute; reflexivity|].
  apply (disabled_only_while_outstanding (mkEnv true true)
           (mkUserInfo (JsString.lit "Ana") (JsString.lit "Backend Engineer") [] [])).
  - apply reachable_worldAfter. vm_compute. discriminate.
  - vm_compute. reflexivity.
Defined.
